(** * pagekite_clean.py: the PageKite tunnel launcher

    A shallow embedding of [src/pagekite_clean.py].  The script is a
    straight line of effects (print, install a SIGINT handler, spawn a
    child and wait for it) cut short by Python exceptions, so it is
    embedded in a small exception-and-state monad whose state is the
    world the script can change: the trace of observable events and the
    installed SIGINT handler.  Everything the script only reads
    ([sys.argv], [sys.executable], whether [subprocess.run] exists, how
    the child behaves) is gathered in an [environ] record.

    Two conventions.  A [Print] event is the call of [print], in program
    order.  A SIGINT is delivered where the script spends its time, in
    the wait for the child; one that lands between two of the statements
    before the spawn is outside the model. *)

From Stdlib Require Import String Ascii List ZArith NArith PArith Bool Lia.
From Stdlib Require Import DecimalString.
Import ListNotations.

Local Open Scope list_scope.
Local Open Scope string_scope.

(** ** Python values used by the script *)

(** The exceptions that can travel through [main]. *)
Inductive exn : Type :=
| SystemExit (code : Z)
| CalledProcessError (returncode : Z) (cmd : list string)
| KeyboardInterrupt
| IndexError
| OSError (strerror : string).

(** Values accepted for the [stdin], [stdout] and [stderr] keywords of
    [subprocess.Popen], when they are given. *)
Inductive redirect : Type := PIPE | DEVNULL.

(** Keyword arguments of [subprocess.run] / [subprocess.call] that decide
    where the child reads, writes and runs.  [None] is Python's default. *)
Record popen_kwargs : Type := mk_kwargs {
  kw_stdin : option redirect;
  kw_stdout : option redirect;
  kw_stderr : option redirect;
  kw_cwd : option string
}.

Definition default_kwargs : popen_kwargs :=
  {| kw_stdin := None; kw_stdout := None; kw_stderr := None; kw_cwd := None |}.

(** Where a standard stream of the child is connected. *)
Inductive stream : Type := InheritedFromParent | NewPipe | NullDevice.

Definition child_stream (k : option redirect) : stream :=
  match k with
  | None => InheritedFromParent
  | Some PIPE => NewPipe
  | Some DEVNULL => NullDevice
  end.

(** What can be installed for SIGINT: the interpreter's default handler
    (which raises [KeyboardInterrupt]) or the script's [signal_handler]. *)
Inductive handler : Type := default_int_handler | the_signal_handler.

(** ** The operating system's side *)

(** How a child that was started ends, as [waitpid] reports it. *)
Inductive wait_status : Type :=
| WExited (status : N)
| WSignaled (signum : positive).

(** [Popen.returncode]: the exit status, or minus the signal number. *)
Definition returncode_of (st : wait_status) : Z :=
  match st with
  | WExited n => Z.of_N n
  | WSignaled s => Z.neg s
  end.

(** What happens while the Launcher waits for a started child: the child
    ends, or a SIGINT reaches the Launcher and, should its handler
    return, the wait goes on. *)
Inductive wait_behaviour : Type :=
| Terminated (st : wait_status)
| Sigint (next : wait_behaviour).

(** What happens when the Launcher asks for the child: the spawn itself
    fails with an [OSError], or the child starts. *)
Inductive spawn_behaviour : Type :=
| SpawnFails (strerror : string)
| Spawned (w : wait_behaviour).

(** The two renderings of [str(CalledProcessError)] found in CPython. *)
Inductive cpe_style : Type := Legacy | Modern.

(** Everything the script reads and does not change. *)
Record environ : Type := mk_environ {
  sys_argv : list string;
  sys_executable : string;
  has_run : bool;                       (* hasattr(subprocess, 'run') *)
  getcwd : string;                      (* working directory of the Launcher *)
  repr_str : string -> string;          (* repr() of a str *)
  repr_signal : positive -> option string;
    (* repr(signal.Signals(n)); None where Signals(n) raises ValueError *)
  cpe_str_style : cpe_style;
  child : spawn_behaviour
}.

(** ** Observable events and the world *)

Inductive event : Type :=
| Print (s : string)                    (* the call print(s), on standard output *)
| Spawn (cmd : list string) (kw : popen_kwargs).       (* the call Popen(cmd, **kw) *)

Record world : Type := mk_world {
  trace : list event;
  sigint : handler
}.

Definition initial_world : world :=
  {| trace := []; sigint := default_int_handler |}.

(** ** The monad: a result or a raised exception, and the new world *)

Inductive result (A : Type) : Type :=
| Ok (a : A)
| Raise (e : exn).
Arguments Ok {A} a.
Arguments Raise {A} e.

Definition M (A : Type) : Type := world -> result A * world.

Definition ret {A} (a : A) : M A := fun w => (Ok a, w).

Definition bind {A B} (m : M A) (k : A -> M B) : M B :=
  fun w =>
    match m w with
    | (Ok a, w') => k a w'
    | (Raise e, w') => (Raise e, w')
    end.

Definition raise {A} (e : exn) : M A := fun w => (Raise e, w).

(** [try: body  except ...:] where [handlers] answers [None] for an
    exception none of the clauses matches. *)
Definition try_except {A} (body : M A) (handlers : exn -> option (M A)) : M A :=
  fun w =>
    match body w with
    | (Ok a, w') => (Ok a, w')
    | (Raise e, w') =>
        match handlers e with
        | Some h => h w'
        | None => (Raise e, w')
        end
    end.

Declare Scope py_scope.
Delimit Scope py_scope with py.
Notation "x <- m ;; k" := (bind m (fun x => k))
  (at level 61, m at next level, right associativity) : py_scope.
Notation "m ;; k" := (bind m (fun _ => k))
  (at level 61, right associativity) : py_scope.
Local Open Scope py_scope.

Definition emit (ev : event) : M unit :=
  fun w => (Ok tt, {| trace := (trace w ++ [ev])%list; sigint := sigint w |}).

Definition print (s : string) : M unit := emit (Print s).

Definition sys_exit {A} (code : Z) : M A := raise (SystemExit code).

Definition signal_signal_SIGINT (h : handler) : M unit :=
  fun w => (Ok tt, {| trace := trace w; sigint := h |}).

(** [l[i]] on a Python list, for a non-negative constant index. *)
Definition getitem (l : list string) (i : nat) : M string :=
  match nth_error l i with
  | Some x => ret x
  | None => raise IndexError
  end.

(** ** Rendering of values *)

Definition newline : string := String (ascii_of_nat 10) EmptyString.

(** [str(n)] and [%d] for a Python int. *)
Definition str_int (z : Z) : string := NilZero.string_of_int (Z.to_int z).

(** [str(l)] for a list of str. *)
Definition str_list (repr : string -> string) (l : list string) : string :=
  "[" ++ String.concat ", " (map repr l) ++ "]".

(** [str(e)] for [e = CalledProcessError(returncode, cmd)]: CPython's
    [CalledProcessError.__str__], in its form since 3.6 ([Modern]) and
    in the older one, which knows nothing of signals ([Legacy]). *)
Definition CalledProcessError_str (E : environ) (returncode : Z)
  (cmd : list string) : string :=
  let c := str_list (repr_str E) cmd in
  match cpe_str_style E with
  | Legacy =>
      "Command '" ++ c ++ "' returned non-zero exit status " ++ str_int returncode
  | Modern =>
      match returncode with
      | Z.neg s =>
          match repr_signal E s with
          | Some r => "Command '" ++ c ++ "' died with " ++ r ++ "."
          | None =>
              "Command '" ++ c ++ "' died with unknown signal "
                ++ str_int (Z.pos s) ++ "."
          end
      | _ =>
          "Command '" ++ c ++ "' returned non-zero exit status "
            ++ str_int returncode ++ "."
      end
  end.

(** ** The script *)

Section Launcher.

Variable E : environ.

(** [def signal_handler(sig, frame)] *)
Definition signal_handler : M unit :=
  print (newline ++ "Shutting down PageKite tunnel...") ;;
  sys_exit 0.

(** The interpreter running whatever is installed for SIGINT. *)
Definition deliver_sigint : M unit :=
  fun w =>
    match sigint w with
    | default_int_handler => raise KeyboardInterrupt w
    | the_signal_handler => signal_handler w
    end.

(** [Popen.wait()]: returns the child's return code. *)
Fixpoint wait (b : wait_behaviour) : M Z :=
  match b with
  | Terminated st => ret (returncode_of st)
  | Sigint next => deliver_sigint ;; wait next
  end.

(** [Popen(cmd, **kw)] followed by [wait()]. *)
Definition popen_wait (cmd : list string) (kw : popen_kwargs) : M Z :=
  emit (Spawn cmd kw) ;;
  match child E with
  | SpawnFails msg => raise (OSError msg)
  | Spawned b => wait b
  end.

(** [subprocess.run(cmd, check=check)] *)
Definition subprocess_run (cmd : list string) (check : bool) : M Z :=
  rc <- popen_wait cmd default_kwargs ;;
  if check && negb (rc =? 0)%Z
  then raise (CalledProcessError rc cmd)
  else ret rc.

(** [subprocess.call(cmd)] *)
Definition subprocess_call (cmd : list string) : M Z :=
  popen_wait cmd default_kwargs.

Definition usage_line : string :=
  "Usage: python pagekite_clean.py <local_port> <subdomain.pagekite.me>".

Definition example_line : string :=
  "Example: python pagekite_clean.py 11434 myapp.pagekite.me".

(** The two [except] clauses of [main], in order; [None] lets the
    exception through. *)
Definition except_clauses (e : exn) : option (M unit) :=
  match e with
  | CalledProcessError rc cmd =>
      Some (print ("PageKite failed with error: "
                     ++ CalledProcessError_str E rc cmd) ;;
            sys_exit 1)
  | KeyboardInterrupt =>
      Some (print (newline ++ "PageKite tunnel stopped") ;;
            sys_exit 0)
  | _ => None
  end.

(** [def main()] *)
Definition main : M unit :=
  (if negb (length (sys_argv E) =? 3)%nat
   then print usage_line ;; print example_line ;; sys_exit 1
   else ret tt) ;;
  local_port <- getitem (sys_argv E) 1 ;;
  subdomain <- getitem (sys_argv E) 2 ;;
  signal_signal_SIGINT the_signal_handler ;;
  print "Starting PageKite tunnel..." ;;
  print ("Local port: " ++ local_port) ;;
  print ("Public URL: https://" ++ subdomain) ;;
  print "Press Ctrl+C to stop" ;;
  try_except
    (let cmd := [sys_executable E; "pagekite.py"; local_port; subdomain] in
     if has_run E
     then subprocess_run cmd true ;; ret tt
     else
       r <- subprocess_call cmd ;;
       if negb (r =? 0)%Z
       then raise (CalledProcessError r cmd)
       else ret tt)
    except_clauses.

End Launcher.

(** ** Running the script as a process *)

(** How the interpreter process ends: with an exit status, or on an
    exception nobody caught (a traceback). *)
Inductive termination : Type :=
| Exit (status : Z)
| Unhandled (e : exn).

(** [if __name__ == "__main__": main()] run from a fresh interpreter. *)
Definition launcher (E : environ) : termination * list event :=
  match main E initial_world with
  | (Ok _, w) => (Exit 0, trace w)
  | (Raise (SystemExit c), w) => (Exit c, trace w)
  | (Raise e, w) => (Unhandled e, trace w)
  end.

Definition outcome (E : environ) : termination := fst (launcher E).
Definition events (E : environ) : list event := snd (launcher E).

(** ** Sample environments *)

(** [repr] of a str free of quotes, backslashes and control characters. *)
Definition plain_repr (s : string) : string := "'" ++ s ++ "'".

Definition posix_signals (n : positive) : option string :=
  match n with
  | 2%positive => Some "<Signals.SIGINT: 2>"
  | 9%positive => Some "<Signals.SIGKILL: 9>"
  | 15%positive => Some "<Signals.SIGTERM: 15>"
  | _ => None
  end.

Definition sample_env (argv : list string) (c : spawn_behaviour) : environ :=
  {| sys_argv := argv;
     sys_executable := "/usr/bin/python3";
     has_run := true;
     getcwd := "/home/user/tunnel";
     repr_str := plain_repr;
     repr_signal := posix_signals;
     cpe_str_style := Modern;
     child := c |}.

Definition two_args : list string :=
  ["pagekite_clean.py"; "11434"; "myapp.pagekite.me"].

(** The child ends with exit status 0. *)
Definition env_success : environ :=
  sample_env two_args (Spawned (Terminated (WExited 0))).

(** The child ends with exit status 3. *)
Definition env_failed : environ :=
  sample_env two_args (Spawned (Terminated (WExited 3))).

(** Ctrl+C while the Launcher waits. *)
Definition env_interrupted : environ :=
  sample_env two_args (Spawned (Sigint (Terminated (WSignaled 2)))).

(** The interpreter cannot be executed. *)
Definition env_spawn_fails : environ :=
  sample_env two_args (SpawnFails "[Errno 2] No such file or directory").

(** Called with the port only. *)
Definition env_one_arg : environ :=
  sample_env ["pagekite_clean.py"; "11434"] (Spawned (Terminated (WExited 0))).

(** ** Reading a trace *)

(** The strings given to [print], in order. *)
Fixpoint printed (t : list event) : list string :=
  match t with
  | [] => []
  | Print s :: t' => s :: printed t'
  | Spawn _ _ :: t' => printed t'
  end.

(** The spawn requests, in order. *)
Fixpoint spawns (t : list event) : list (list string * popen_kwargs) :=
  match t with
  | [] => []
  | Print _ :: t' => spawns t'
  | Spawn cmd kw :: t' => (cmd, kw) :: spawns t'
  end.

(** [needle] occurs somewhere in [s]. *)
Definition Contains (needle s : string) : Prop :=
  exists pre post, s = pre ++ needle ++ post.

(** The lines of a trace that are example lines. *)
Definition example_lines (t : list event) : list string :=
  filter (String.prefix "Example") (printed t).

(** The four lines [main] prints once the argument count is accepted. *)
Definition status_lines (local_port subdomain : string) : list event :=
  [ Print "Starting PageKite tunnel...";
    Print ("Local port: " ++ local_port);
    Print ("Public URL: https://" ++ subdomain);
    Print "Press Ctrl+C to stop" ].

(** The command [main] builds. *)
Definition command (E : environ) (local_port subdomain : string) : list string :=
  [sys_executable E; "pagekite.py"; local_port; subdomain].

(** ** The kinds of run the specification names *)

Inductive run_kind : Type :=
| UsageError | ChildSuccess | ChildFailed | UserInterrupt | SpawnError.

(** The kind of a run, read off what the environment supplies. *)
Definition classify (E : environ) : run_kind :=
  if negb (length (sys_argv E) =? 3)%nat then UsageError
  else
    match child E with
    | SpawnFails _ => SpawnError
    | Spawned (Sigint _) => UserInterrupt
    | Spawned (Terminated st) =>
        if (returncode_of st =? 0)%Z then ChildSuccess else ChildFailed
    end.

(** ** Where the child looks for its script (POSIX) *)

Definition is_absolute (path : string) : bool := String.prefix "/" path.

(** The working directory the child starts in. *)
Definition child_cwd (E : environ) (kw : popen_kwargs) : string :=
  match kw_cwd kw with
  | Some d => d
  | None => getcwd E
  end.

(** Pathname resolution: a relative pathname starts at the working
    directory of the process that opens it. *)
Definition resolve (dir path : string) : string :=
  if is_absolute path then path else dir ++ "/" ++ path.

(** The file the spawned interpreter opens as its script. *)
Definition script_opened (E : environ) (cmd : list string) (kw : popen_kwargs)
  : option string :=
  match cmd with
  | _ :: script :: _ => Some (resolve (child_cwd E kw) script)
  | _ => None
  end.

(** ** The usage branch as the specification words it *)

(** A usage message and two example lines on standard output, exit
    status 1, no child. *)
Definition usage_report_as_stated (E : environ) : Prop :=
  outcome E = Exit 1 /\
  spawns (events E) = [] /\
  (exists u, In u (printed (events E)) /\ String.prefix "Usage" u = true) /\
  List.length (example_lines (events E)) = 2%nat.

(** ** Variations of an environment *)

(** The same environment under an interpreter that has, or lacks,
    [subprocess.run]. *)
Definition set_has_run (b : bool) (E : environ) : environ :=
  {| sys_argv := sys_argv E;
     sys_executable := sys_executable E;
     has_run := b;
     getcwd := getcwd E;
     repr_str := repr_str E;
     repr_signal := repr_signal E;
     cpe_str_style := cpe_str_style E;
     child := child E |}.

(** The same environment with another argument list. *)
Definition set_argv (argv : list string) (E : environ) : environ :=
  {| sys_argv := argv;
     sys_executable := sys_executable E;
     has_run := has_run E;
     getcwd := getcwd E;
     repr_str := repr_str E;
     repr_signal := repr_signal E;
     cpe_str_style := cpe_str_style E;
     child := child E |}.

(** The world [main] leaves behind. *)
Definition final_world (E : environ) : world := snd (main E initial_world).

(** The child is killed by SIGKILL. *)
Definition env_killed : environ :=
  sample_env two_args (Spawned (Terminated (WSignaled 9))).


(** * Properties *)

(** ** Strings *)

Lemma append_assoc (a b c : string) : (a ++ b) ++ c = a ++ (b ++ c).
Proof.
  induction a as [|ch a IH]; simpl.
  - reflexivity.
  - rewrite IH. reflexivity.
Qed.

Lemma Contains_here (needle post : string) : Contains needle (needle ++ post).
Proof. exists "", post. reflexivity. Qed.

Lemma Contains_after (needle pre s : string) :
  Contains needle s -> Contains needle (pre ++ s).
Proof.
  intros (a & b & ->). exists (pre ++ a), b.
  now rewrite append_assoc.
Qed.

Lemma Contains_end (needle : string) : Contains needle needle.
Proof.
  exists "", "". simpl.
  induction needle as [|ch n IH]; simpl; [reflexivity | now rewrite <- IH].
Qed.

(** ** Argument lists *)

Lemma three_elements (l : list string) :
  List.length l = 3%nat -> exists a b c, l = [a; b; c].
Proof.
  destruct l as [|a [|b [|c [|d l]]]]; simpl; intros H; try discriminate.
  now exists a, b, c.
Qed.

(** ** What a run is, case by case *)

Section Runs.

Variable E : environ.

Lemma launcher_usage :
  List.length (sys_argv E) <> 3%nat ->
  launcher E = (Exit 1, [Print usage_line; Print example_line]).
Proof.
  intros H. unfold launcher, main.
  destruct (Nat.eqb_spec (List.length (sys_argv E)) 3) as [Heq|_]; [contradiction|].
  reflexivity.
Qed.

Variables prog local_port subdomain : string.
Hypothesis Hargv : sys_argv E = [prog; local_port; subdomain].

Lemma launcher_terminated (st : wait_status) :
  child E = Spawned (Terminated st) ->
  launcher E =
    if (returncode_of st =? 0)%Z
    then (Exit 0, status_lines local_port subdomain ++ [Spawn (command E local_port subdomain) default_kwargs])%list
    else (Exit 1,
          status_lines local_port subdomain ++
            [Spawn (command E local_port subdomain) default_kwargs;
             Print ("PageKite failed with error: "
                      ++ CalledProcessError_str E (returncode_of st)
                    (command E local_port subdomain))])%list.
Proof.
  intros Hc. unfold launcher, main. rewrite Hargv. cbn.
  unfold try_except, subprocess_run, subprocess_call, popen_wait, bind.
  destruct (has_run E); cbn; rewrite Hc; cbn;
    destruct (returncode_of st =? 0)%Z; reflexivity.
Qed.

Lemma launcher_sigint (next : wait_behaviour) :
  child E = Spawned (Sigint next) ->
  launcher E =
    (Exit 0,
     status_lines local_port subdomain ++
       [Spawn (command E local_port subdomain) default_kwargs;
        Print (newline ++ "Shutting down PageKite tunnel...")])%list.
Proof.
  intros Hc. unfold launcher, main. rewrite Hargv. cbn.
  unfold try_except, subprocess_run, subprocess_call, popen_wait, bind.
  destruct (has_run E); cbn; rewrite Hc; reflexivity.
Qed.

Lemma launcher_spawn_fails (msg : string) :
  child E = SpawnFails msg ->
  launcher E =
    (Unhandled (OSError msg),
     status_lines local_port subdomain ++ [Spawn (command E local_port subdomain) default_kwargs])%list.
Proof.
  intros Hc. unfold launcher, main. rewrite Hargv. cbn.
  unfold try_except, subprocess_run, subprocess_call, popen_wait, bind.
  destruct (has_run E); cbn; rewrite Hc; reflexivity.
Qed.

End Runs.

(** Every run with two arguments prints the four status lines, asks for
    the child once, and whatever follows asks for no other child. *)
Lemma launcher_two_args (E : environ) (prog local_port subdomain : string) :
  sys_argv E = [prog; local_port; subdomain] ->
  exists rest,
    events E =
      (status_lines local_port subdomain
         ++ Spawn (command E local_port subdomain) default_kwargs :: rest)%list
    /\ spawns rest = [].
Proof.
  intros Hargv. unfold events.
  destruct (child E) as [msg | [st | next]] eqn:Hc.
  - rewrite (launcher_spawn_fails E _ _ _ Hargv msg Hc).
    exists []. split; reflexivity.
  - rewrite (launcher_terminated E _ _ _ Hargv st Hc).
    destruct (returncode_of st =? 0)%Z.
    + exists []. split; reflexivity.
    + eexists [Print _]. split; reflexivity.
  - rewrite (launcher_sigint E _ _ _ Hargv next Hc).
    eexists [Print _]. split; reflexivity.
Qed.

Lemma returncode_exited_nonzero (n : N) :
  n <> 0%N -> (returncode_of (WExited n) =? 0)%Z = false.
Proof. intros H. apply Z.eqb_neq. simpl. lia. Qed.

(** ** The [except KeyboardInterrupt] clause *)

(** Were a [KeyboardInterrupt] raised inside the [try], the clause
    would print its own line and leave with status 0 as well. *)
Lemma keyboard_interrupt_clause (E : environ) (w : world) :
  try_except (raise KeyboardInterrupt) (except_clauses E) w
  = (Raise (SystemExit 0),
     {| trace := (trace w ++ [Print (newline ++ "PageKite tunnel stopped")])%list;
        sigint := sigint w |}).
Proof. reflexivity. Qed.

(** X7. With [signal_handler] installed before the [try], no run of
    the script reaches that clause: the line [PageKite tunnel stopped]
    is never printed, whatever the arguments and the child. *)
Lemma stopped_line_never_printed (E : environ) :
  ~ In (newline ++ "PageKite tunnel stopped") (printed (events E)).
Proof.
  unfold events.
  destruct (Nat.eq_dec (List.length (sys_argv E)) 3) as [Hlen|Hlen].
  - destruct (three_elements _ Hlen) as (a & b & c & Hargv).
    destruct (child E) as [msg | [st | next]] eqn:Hc.
    + rewrite (launcher_spawn_fails E _ _ _ Hargv msg Hc). cbn.
      intros [H | [H | [H | [H | []]]]]; discriminate H.
    + rewrite (launcher_terminated E _ _ _ Hargv st Hc).
      destruct (returncode_of st =? 0)%Z; cbn;
        [ intros [H | [H | [H | [H | []]]]]
        | intros [H | [H | [H | [H | [H | []]]]]] ];
        discriminate H.
    + rewrite (launcher_sigint E _ _ _ Hargv next Hc). cbn.
      intros [H | [H | [H | [H | [H | []]]]]]; discriminate H.
  - rewrite (launcher_usage E Hlen). cbn.
    intros [H | [H | []]]; discriminate H.
Qed.

(** ** The claims *)

(** C1. In a run with exactly two arguments whose child exits with a
    non-zero status [n], the last thing the Launcher does before it
    ends is to print an error message that contains the decimal
    numeral of [n]; it then exits with status 1. *)
Theorem child_failure_reported
  (E : environ) (prog local_port subdomain : string) (n : N) :
  sys_argv E = [prog; local_port; subdomain] ->
  child E = Spawned (Terminated (WExited n)) ->
  n <> 0%N ->
  outcome E = Exit 1 /\
  exists before msg,
    events E = (before ++ [Print msg])%list /\
    msg = "PageKite failed with error: "
            ++ CalledProcessError_str E (Z.of_N n) (command E local_port subdomain) /\
    Contains (str_int (Z.of_N n)) msg.
Proof.
  intros Hargv Hc Hn.
  unfold outcome, events.
  rewrite (launcher_terminated E _ _ _ Hargv _ Hc).
  rewrite (returncode_exited_nonzero n Hn).
  split; [reflexivity|].
  eexists (status_lines local_port subdomain ++ [Spawn _ _])%list, _.
  split; [|split; [reflexivity|]].
  - cbn [fst snd]. rewrite <- app_assoc. reflexivity.
  - apply Contains_after.
    unfold CalledProcessError_str.
    destruct (cpe_str_style E).
    + do 3 apply Contains_after. apply Contains_end.
    + destruct n as [|p]; [contradiction|]. cbn [returncode_of Z.of_N].
      do 3 apply Contains_after. apply Contains_here.
Qed.

Lemma child_failure_reported_witness :
  sys_argv env_failed = ["pagekite_clean.py"; "11434"; "myapp.pagekite.me"] /\
  child env_failed = Spawned (Terminated (WExited 3)) /\
  3%N <> 0%N /\
  outcome env_failed = Exit 1 /\
  exists before msg,
    events env_failed = (before ++ [Print msg])%list /\
    msg = "PageKite failed with error: "
            ++ CalledProcessError_str env_failed 3
                 (command env_failed "11434" "myapp.pagekite.me") /\
    Contains "3" msg.
Proof.
  split; [reflexivity|]. split; [reflexivity|]. split; [lia|].
  apply (child_failure_reported env_failed
           "pagekite_clean.py" "11434" "myapp.pagekite.me" 3);
    [reflexivity | reflexivity | lia].
Defined.

(** C2. In a run with exactly two arguments, when a SIGINT reaches the
    Launcher while it waits for the child, the Launcher prints the
    shutdown message as its last output and exits with status 0: it
    ends neither with another status nor on an exception. *)
Theorem interrupt_is_graceful
  (E : environ) (prog local_port subdomain : string) (next : wait_behaviour) :
  sys_argv E = [prog; local_port; subdomain] ->
  child E = Spawned (Sigint next) ->
  outcome E = Exit 0 /\
  (exists before,
     events E =
       (before ++ [Print (newline ++ "Shutting down PageKite tunnel...")])%list) /\
  (forall c, c <> 0%Z -> outcome E <> Exit c) /\
  (forall e, outcome E <> Unhandled e).
Proof.
  intros Hargv Hc.
  unfold outcome, events.
  rewrite (launcher_sigint E _ _ _ Hargv next Hc). cbn [fst snd].
  repeat split.
  - eexists (status_lines local_port subdomain ++ [Spawn _ _])%list.
    rewrite <- app_assoc. reflexivity.
  - intros c Hne Heq. injection Heq as <-. now apply Hne.
  - intros e Heq. discriminate Heq.
Qed.

Lemma interrupt_is_graceful_witness :
  sys_argv env_interrupted = ["pagekite_clean.py"; "11434"; "myapp.pagekite.me"] /\
  child env_interrupted = Spawned (Sigint (Terminated (WSignaled 2))) /\
  outcome env_interrupted = Exit 0 /\
  (exists before,
     events env_interrupted =
       (before ++ [Print (newline ++ "Shutting down PageKite tunnel...")])%list) /\
  (forall c, c <> 0%Z -> outcome env_interrupted <> Exit c) /\
  (forall e, outcome env_interrupted <> Unhandled e).
Proof.
  split; [reflexivity|]. split; [reflexivity|].
  apply (interrupt_is_graceful env_interrupted
           "pagekite_clean.py" "11434" "myapp.pagekite.me"
           (Terminated (WSignaled 2)));
    reflexivity.
Defined.

(** C3. In a run with exactly two arguments whose child exits with
    status 0, the Launcher exits with status 0. *)
Theorem child_success_exits_zero
  (E : environ) (prog local_port subdomain : string) :
  sys_argv E = [prog; local_port; subdomain] ->
  child E = Spawned (Terminated (WExited 0)) ->
  outcome E = Exit 0.
Proof.
  intros Hargv Hc. unfold outcome.
  rewrite (launcher_terminated E _ _ _ Hargv _ Hc). reflexivity.
Qed.

Lemma child_success_exits_zero_witness :
  sys_argv env_success = ["pagekite_clean.py"; "11434"; "myapp.pagekite.me"] /\
  child env_success = Spawned (Terminated (WExited 0)) /\
  outcome env_success = Exit 0.
Proof.
  split; [reflexivity|]. split; [reflexivity|].
  apply (child_success_exits_zero env_success
           "pagekite_clean.py" "11434" "myapp.pagekite.me");
    reflexivity.
Defined.

(** C4, as the code has it.  In a run whose argument count is not two,
    the Launcher prints the usage line and one example line, two lines
    in all, spawns no child and exits with status 1. *)
Theorem usage_error_reported (E : environ) :
  List.length (sys_argv E) <> 3%nat ->
  outcome E = Exit 1 /\
  printed (events E) = [usage_line; example_line] /\
  List.length (example_lines (events E)) = 1%nat /\
  spawns (events E) = [].
Proof.
  intros H. unfold outcome, events.
  rewrite (launcher_usage E H).
  repeat split.
Qed.

Lemma usage_error_reported_witness :
  List.length (sys_argv env_one_arg) <> 3%nat /\
  outcome env_one_arg = Exit 1 /\
  printed (events env_one_arg) = [usage_line; example_line] /\
  List.length (example_lines (events env_one_arg)) = 1%nat /\
  spawns (events env_one_arg) = [].
Proof.
  split; [simpl; lia|].
  apply (usage_error_reported env_one_arg). simpl. lia.
Defined.

(** C4, as the specification words it, fails: called with one argument
    the Launcher prints a single example line, not two. *)
Lemma usage_report_as_stated_fails : ~ usage_report_as_stated env_one_arg.
Proof.
  intros (_ & _ & _ & H). vm_compute in H. discriminate H.
Qed.

(** C5. In a run with exactly two arguments the Launcher prints, in
    this order, the tunnel-starting line, the local port, the public
    URL [https://<subdomain>] and the hint to press Ctrl+C, and only
    then asks for the child; these are the first events of the run. *)
Theorem status_lines_precede_spawn
  (E : environ) (prog local_port subdomain : string) :
  sys_argv E = [prog; local_port; subdomain] ->
  exists cmd kw rest,
    events E =
      ([ Print "Starting PageKite tunnel...";
         Print ("Local port: " ++ local_port);
         Print ("Public URL: https://" ++ subdomain);
         Print "Press Ctrl+C to stop";
         Spawn cmd kw ] ++ rest)%list
    /\ spawns rest = [].
Proof.
  intros Hargv.
  destruct (launcher_two_args E _ _ _ Hargv) as (rest & Hev & Hrest).
  exists (command E local_port subdomain), default_kwargs, rest.
  split; [exact Hev | exact Hrest].
Qed.

Lemma status_lines_precede_spawn_witness :
  sys_argv env_failed = ["pagekite_clean.py"; "11434"; "myapp.pagekite.me"] /\
  exists cmd kw rest,
    events env_failed =
      ([ Print "Starting PageKite tunnel...";
         Print ("Local port: " ++ "11434");
         Print ("Public URL: https://" ++ "myapp.pagekite.me");
         Print "Press Ctrl+C to stop";
         Spawn cmd kw ] ++ rest)%list
    /\ spawns rest = [].
Proof.
  split; [reflexivity|].
  apply (status_lines_precede_spawn env_failed "pagekite_clean.py").
  reflexivity.
Defined.

(** C6. In a run with exactly two arguments the Launcher asks for a
    child exactly once.  The command is the interpreter, the tunnel
    script, then [local_port] and [subdomain] as given and in that
    order, and no stream is redirected: the child's standard input,
    output and error are the Launcher's. *)
Theorem child_spawned_once_with_arguments
  (E : environ) (prog local_port subdomain : string) :
  sys_argv E = [prog; local_port; subdomain] ->
  exists kw,
    spawns (events E)
      = [([sys_executable E; "pagekite.py"; local_port; subdomain], kw)] /\
    child_stream (kw_stdin kw) = InheritedFromParent /\
    child_stream (kw_stdout kw) = InheritedFromParent /\
    child_stream (kw_stderr kw) = InheritedFromParent.
Proof.
  intros Hargv.
  destruct (launcher_two_args E _ _ _ Hargv) as (rest & Hev & Hrest).
  exists default_kwargs.
  rewrite Hev. cbn. rewrite Hrest. repeat split.
Qed.

Lemma child_spawned_once_with_arguments_witness :
  sys_argv env_spawn_fails = ["pagekite_clean.py"; "11434"; "myapp.pagekite.me"] /\
  exists kw,
    spawns (events env_spawn_fails)
      = [(["/usr/bin/python3"; "pagekite.py"; "11434"; "myapp.pagekite.me"], kw)] /\
    child_stream (kw_stdin kw) = InheritedFromParent /\
    child_stream (kw_stdout kw) = InheritedFromParent /\
    child_stream (kw_stderr kw) = InheritedFromParent.
Proof.
  split; [reflexivity|].
  apply (child_spawned_once_with_arguments env_spawn_fails "pagekite_clean.py").
  reflexivity.
Defined.

(** C7. A run that is a usage error, a child success, a child failure
    or a graceful interrupt ends with exit status 0 or 1: it is 0
    exactly for a child success or an interrupt, and 1 exactly for a
    usage error or a child failure. *)
Theorem exit_code_by_run_kind (E : environ) :
  classify E <> SpawnError ->
  exists c,
    outcome E = Exit c /\
    (c = 0 \/ c = 1)%Z /\
    (c = 0%Z <-> classify E = ChildSuccess \/ classify E = UserInterrupt) /\
    (c = 1%Z <-> classify E = UsageError \/ classify E = ChildFailed).
Proof.
  unfold classify, outcome.
  destruct (Nat.eqb_spec (List.length (sys_argv E)) 3) as [Hlen|Hlen]; cbn [negb].
  - destruct (three_elements _ Hlen) as (a & b & c & Hargv).
    destruct (child E) as [msg | [st | next]] eqn:Hc.
    + intros H. now contradiction H.
    + intros _. rewrite (launcher_terminated E _ _ _ Hargv st Hc).
      destruct (returncode_of st =? 0)%Z.
      * exists 0%Z. repeat split; auto; try discriminate.
        intros [H|H]; discriminate H.
      * exists 1%Z. repeat split; auto; try discriminate.
        intros [H|H]; discriminate H.
    + intros _. rewrite (launcher_sigint E _ _ _ Hargv next Hc).
      exists 0%Z. repeat split; auto; try discriminate.
      intros [H|H]; discriminate H.
  - intros _. rewrite (launcher_usage E Hlen).
    exists 1%Z. repeat split; auto; try discriminate.
    intros [H|H]; discriminate H.
Qed.

Lemma exit_code_by_run_kind_witness :
  classify env_interrupted <> SpawnError /\
  exists c,
    outcome env_interrupted = Exit c /\
    (c = 0 \/ c = 1)%Z /\
    (c = 0%Z <->
       classify env_interrupted = ChildSuccess \/
       classify env_interrupted = UserInterrupt) /\
    (c = 1%Z <->
       classify env_interrupted = UsageError \/
       classify env_interrupted = ChildFailed).
Proof.
  assert (H : classify env_interrupted <> SpawnError)
    by (vm_compute; discriminate).
  split; [exact H|].
  apply (exit_code_by_run_kind env_interrupted H).
Defined.

(** C8. Called with [11434] and [myapp.pagekite.me], the Launcher
    prints a line containing [https://myapp.pagekite.me], and no child
    has been asked for before that line while one is asked for after. *)
Theorem example_url_printed_before_spawn (E : environ) (prog : string) :
  sys_argv E = [prog; "11434"; "myapp.pagekite.me"] ->
  exists before line after,
    events E = (before ++ Print line :: after)%list /\
    Contains "https://myapp.pagekite.me" line /\
    spawns before = [] /\
    spawns after <> [].
Proof.
  intros Hargv.
  destruct (launcher_two_args E _ _ _ Hargv) as (rest & Hev & _).
  exists [Print "Starting PageKite tunnel..."; Print "Local port: 11434"],
    "Public URL: https://myapp.pagekite.me",
    (Print "Press Ctrl+C to stop"
       :: Spawn (command E "11434" "myapp.pagekite.me") default_kwargs :: rest).
  split; [exact Hev|]. split; [|split].
  - exists "Public URL: ", "". reflexivity.
  - reflexivity.
  - cbn. discriminate.
Qed.

Lemma example_url_printed_before_spawn_witness :
  sys_argv env_success = ["pagekite_clean.py"; "11434"; "myapp.pagekite.me"] /\
  exists before line after,
    events env_success = (before ++ Print line :: after)%list /\
    Contains "https://myapp.pagekite.me" line /\
    spawns before = [] /\
    spawns after <> [].
Proof.
  split; [reflexivity|].
  apply (example_url_printed_before_spawn env_success "pagekite_clean.py").
  reflexivity.
Defined.

(** C9. In a run with exactly two arguments in which the spawn itself
    fails with an [OSError], no clause of the [try] catches it: the
    Launcher ends on that exception, and nothing it printed is the
    child-failure message. *)
Theorem spawn_error_is_unhandled
  (E : environ) (prog local_port subdomain msg : string) :
  sys_argv E = [prog; local_port; subdomain] ->
  child E = SpawnFails msg ->
  outcome E = Unhandled (OSError msg) /\
  forall s, In s (printed (events E)) ->
            String.prefix "PageKite failed with error" s = false.
Proof.
  intros Hargv Hc. unfold outcome, events.
  rewrite (launcher_spawn_fails E _ _ _ Hargv msg Hc). cbn [fst snd].
  split; [reflexivity|].
  intros s Hin. cbn in Hin.
  destruct Hin as [<- | [<- | [<- | [<- | []]]]]; reflexivity.
Qed.

Lemma spawn_error_is_unhandled_witness :
  sys_argv env_spawn_fails = ["pagekite_clean.py"; "11434"; "myapp.pagekite.me"] /\
  child env_spawn_fails = SpawnFails "[Errno 2] No such file or directory" /\
  outcome env_spawn_fails
    = Unhandled (OSError "[Errno 2] No such file or directory") /\
  forall s, In s (printed (events env_spawn_fails)) ->
            String.prefix "PageKite failed with error" s = false.
Proof.
  split; [reflexivity|]. split; [reflexivity|].
  apply (spawn_error_is_unhandled env_spawn_fails
           "pagekite_clean.py" "11434" "myapp.pagekite.me");
    reflexivity.
Defined.

(** C10. In a run with exactly two arguments the one child asked for
    is the Launcher's own interpreter ([sys.executable]) given the
    literal path [pagekite.py], whatever the arguments are.  That path
    is relative and no working directory is passed, so the child opens
    it under the Launcher's working directory. *)
Theorem child_is_own_interpreter_on_relative_script
  (E : environ) (prog local_port subdomain : string) :
  sys_argv E = [prog; local_port; subdomain] ->
  exists args kw,
    spawns (events E) = [(sys_executable E :: "pagekite.py" :: args, kw)] /\
    is_absolute "pagekite.py" = false /\
    kw_cwd kw = None /\
    script_opened E (sys_executable E :: "pagekite.py" :: args) kw
      = Some (getcwd E ++ "/pagekite.py").
Proof.
  intros Hargv.
  destruct (launcher_two_args E _ _ _ Hargv) as (rest & Hev & Hrest).
  exists [local_port; subdomain], default_kwargs.
  rewrite Hev. cbn. rewrite Hrest. repeat split.
Qed.

Lemma child_is_own_interpreter_on_relative_script_witness :
  sys_argv env_success = ["pagekite_clean.py"; "11434"; "myapp.pagekite.me"] /\
  exists args kw,
    spawns (events env_success) = [("/usr/bin/python3" :: "pagekite.py" :: args, kw)] /\
    is_absolute "pagekite.py" = false /\
    kw_cwd kw = None /\
    script_opened env_success ("/usr/bin/python3" :: "pagekite.py" :: args) kw
      = Some ("/home/user/tunnel" ++ "/pagekite.py").
Proof.
  split; [reflexivity|].
  apply (child_is_own_interpreter_on_relative_script env_success
           "pagekite_clean.py" "11434" "myapp.pagekite.me").
  reflexivity.
Defined.

(** * Further properties of the script *)

(** X1. The fallback for interpreters without [subprocess.run] changes
    nothing that can be observed: with [subprocess.call] followed by
    the explicit [raise], a run prints, spawns and ends exactly as with
    [subprocess.run(cmd, check=True)]. *)
Theorem fallback_path_is_equivalent (E : environ) (b : bool) :
  launcher (set_has_run b E) = launcher E.
Proof.
  destruct (Nat.eq_dec (List.length (sys_argv E)) 3) as [Hlen|Hlen].
  - destruct (three_elements _ Hlen) as (p & lp & sd & Hargv).
    assert (Hargv' : sys_argv (set_has_run b E) = [p; lp; sd]) by exact Hargv.
    destruct (child E) as [msg | [st | next]] eqn:Hc.
    + rewrite (launcher_spawn_fails _ _ _ _ Hargv' msg Hc).
      rewrite (launcher_spawn_fails _ _ _ _ Hargv msg Hc). reflexivity.
    + rewrite (launcher_terminated _ _ _ _ Hargv' st Hc).
      rewrite (launcher_terminated _ _ _ _ Hargv st Hc). reflexivity.
    + rewrite (launcher_sigint _ _ _ _ Hargv' next Hc).
      rewrite (launcher_sigint _ _ _ _ Hargv next Hc). reflexivity.
  - rewrite (launcher_usage (set_has_run b E) Hlen).
    rewrite (launcher_usage E Hlen). reflexivity.
Qed.

(** X2. [sys.argv[0]] is never read: started under another script name
    or path, with the same arguments, the Launcher prints, spawns and
    ends in the same way. *)
Theorem script_name_is_irrelevant
  (E : environ) (prog prog' : string) (arguments : list string) :
  sys_argv E = prog :: arguments ->
  launcher (set_argv (prog' :: arguments) E) = launcher E.
Proof.
  intros Hargv.
  destruct (Nat.eq_dec (List.length arguments) 2) as [Hlen|Hlen].
  - destruct arguments as [|lp [|sd [|x l]]]; try discriminate Hlen.
    assert (Hargv' : sys_argv (set_argv [prog'; lp; sd] E) = [prog'; lp; sd])
      by reflexivity.
    destruct (child E) as [msg | [st | next]] eqn:Hc.
    + rewrite (launcher_spawn_fails _ _ _ _ Hargv' msg Hc).
      rewrite (launcher_spawn_fails _ _ _ _ Hargv msg Hc). reflexivity.
    + rewrite (launcher_terminated _ _ _ _ Hargv' st Hc).
      rewrite (launcher_terminated _ _ _ _ Hargv st Hc). reflexivity.
    + rewrite (launcher_sigint _ _ _ _ Hargv' next Hc).
      rewrite (launcher_sigint _ _ _ _ Hargv next Hc). reflexivity.
  - rewrite (launcher_usage (set_argv (prog' :: arguments) E));
      [| cbn; lia].
    rewrite (launcher_usage E); [reflexivity | rewrite Hargv; cbn; lia].
Qed.

Lemma script_name_is_irrelevant_witness :
  sys_argv env_failed = "pagekite_clean.py" :: ["11434"; "myapp.pagekite.me"] /\
  launcher (set_argv ("/opt/tools/launch" :: ["11434"; "myapp.pagekite.me"]) env_failed)
    = launcher env_failed.
Proof.
  split; [reflexivity|].
  apply (script_name_is_irrelevant env_failed
           "pagekite_clean.py" "/opt/tools/launch" ["11434"; "myapp.pagekite.me"]).
  reflexivity.
Defined.


(** X4. A child is asked for exactly when the argument count is two,
    and never more than once in a run. *)
Theorem spawn_iff_two_arguments (E : environ) :
  (spawns (events E) <> [] <-> List.length (sys_argv E) = 3%nat) /\
  (List.length (spawns (events E)) <= 1)%nat.
Proof.
  destruct (Nat.eq_dec (List.length (sys_argv E)) 3) as [Hlen|Hlen].
  - destruct (three_elements _ Hlen) as (p & lp & sd & Hargv).
    destruct (launcher_two_args E _ _ _ Hargv) as (rest & Hev & Hrest).
    rewrite Hev. cbn. rewrite Hrest. split; [split|].
    + intros _. exact Hlen.
    + intros _. discriminate.
    + cbn. lia.
  - unfold events. rewrite (launcher_usage E Hlen). cbn. split; [split|].
    + intros H. now contradiction H.
    + intros H. contradiction.
    + lia.
Qed.

Lemma prefix_append (p s : string) : String.prefix p (p ++ s) = true.
Proof.
  induction p as [|ch p IH]; simpl.
  - now destruct s.
  - destruct (ascii_dec ch ch) as [_|Hne]; [exact IH | now contradiction Hne].
Qed.

(** X5. Any non-zero return code is a failure, a death by signal
    included (even by SIGINT sent to the child alone): the Launcher
    ends with status 1 after printing, as its last output, a line that
    starts with the failure text and shows the whole command. *)
Theorem any_nonzero_returncode_is_failure
  (E : environ) (prog local_port subdomain : string) (st : wait_status) :
  sys_argv E = [prog; local_port; subdomain] ->
  child E = Spawned (Terminated st) ->
  returncode_of st <> 0%Z ->
  outcome E = Exit 1 /\
  exists before msg,
    events E = (before ++ [Print msg])%list /\
    String.prefix "PageKite failed with error: " msg = true /\
    Contains (str_list (repr_str E) (command E local_port subdomain)) msg.
Proof.
  intros Hargv Hc Hrc.
  unfold outcome, events.
  rewrite (launcher_terminated E _ _ _ Hargv _ Hc).
  apply Z.eqb_neq in Hrc. rewrite Hrc. cbn [fst snd].
  split; [reflexivity|].
  eexists (status_lines local_port subdomain ++ [Spawn _ _])%list, _.
  split; [|split].
  - rewrite <- app_assoc. reflexivity.
  - apply prefix_append.
  - apply Contains_after.
    unfold CalledProcessError_str.
    destruct (cpe_str_style E);
      [| destruct (returncode_of st) as [|p|p];
         [| | destruct (repr_signal E p)] ];
      apply Contains_after; apply Contains_here.
Qed.

Lemma any_nonzero_returncode_is_failure_witness :
  sys_argv env_killed = ["pagekite_clean.py"; "11434"; "myapp.pagekite.me"] /\
  child env_killed = Spawned (Terminated (WSignaled 9)) /\
  returncode_of (WSignaled 9) <> 0%Z /\
  outcome env_killed = Exit 1 /\
  exists before msg,
    events env_killed = (before ++ [Print msg])%list /\
    String.prefix "PageKite failed with error: " msg = true /\
    Contains
      (str_list (repr_str env_killed)
         (command env_killed "11434" "myapp.pagekite.me")) msg.
Proof.
  split; [reflexivity|]. split; [reflexivity|]. split; [simpl; lia|].
  apply (any_nonzero_returncode_is_failure env_killed
           "pagekite_clean.py" "11434" "myapp.pagekite.me" (WSignaled 9));
    [reflexivity | reflexivity | simpl; lia].
Defined.



(** X8. The SIGINT handler is installed only once the argument count
    has been accepted: a run with two arguments ends with
    [signal_handler] installed, and a usage-error run leaves the
    interpreter's default handler in place. *)
Theorem handler_installed_iff_arguments_accepted (E : environ) :
  sigint (final_world E) = the_signal_handler
  <-> List.length (sys_argv E) = 3%nat.
Proof.
  unfold final_world, main.
  destruct (sys_argv E) as [|a [|b [|c [|d l]]]]; cbn;
    try (split; intros H; discriminate H).
  unfold try_except, subprocess_run, subprocess_call, popen_wait, bind.
  destruct (has_run E), (child E) as [msg | [st | next]]; cbn;
    try destruct (returncode_of st =? 0)%Z; cbn; split; reflexivity.
Qed.

(** X9. Success is silent: when the child exits with status 0 the
    Launcher has printed the four status lines and nothing else, and
    the request for the child is the last event of the run. *)
Theorem success_prints_nothing_more
  (E : environ) (prog local_port subdomain : string) :
  sys_argv E = [prog; local_port; subdomain] ->
  child E = Spawned (Terminated (WExited 0)) ->
  printed (events E) =
    [ "Starting PageKite tunnel...";
      "Local port: " ++ local_port;
      "Public URL: https://" ++ subdomain;
      "Press Ctrl+C to stop" ] /\
  exists before cmd kw, events E = (before ++ [Spawn cmd kw])%list.
Proof.
  intros Hargv Hc. unfold events.
  rewrite (launcher_terminated E _ _ _ Hargv _ Hc). cbn [returncode_of Z.of_N Z.eqb snd].
  split; [reflexivity|].
  now exists (status_lines local_port subdomain),
    (command E local_port subdomain), default_kwargs.
Qed.

Lemma success_prints_nothing_more_witness :
  sys_argv env_success = ["pagekite_clean.py"; "11434"; "myapp.pagekite.me"] /\
  child env_success = Spawned (Terminated (WExited 0)) /\
  printed (events env_success) =
    [ "Starting PageKite tunnel...";
      "Local port: " ++ "11434";
      "Public URL: https://" ++ "myapp.pagekite.me";
      "Press Ctrl+C to stop" ] /\
  exists before cmd kw, events env_success = (before ++ [Spawn cmd kw])%list.
Proof.
  split; [reflexivity|]. split; [reflexivity|].
  apply (success_prints_nothing_more env_success
           "pagekite_clean.py" "11434" "myapp.pagekite.me");
    reflexivity.
Defined.
